(** * Session handling and role-gated routing of the GenZ CareerHub front end

    A shallow embedding of three source units:
    - the HTTP client ([axiosClient]: one request and one response
      interceptor),
    - the session store and the auth operations ([AuthProvider] in
      [context/AuthContext.jsx]),
    - the router ([AppRoutes]).

    The browser state those units read and write ([localStorage], the React
    state [user] and [loading], the current location, the toasts shown) is
    one record, threaded through a state monad that also logs every state
    it passes through, so that statements about "every point of a cycle"
    can be made.  A network call is a point where the code is suspended:
    the server's answer is an argument of the model. *)

From stdpp Require Import base option gmap strings list.

Open Scope string_scope.
Open Scope list_scope.

(** ** Data model *)

(** The identity object held in the React state [user].  [login] builds it
    from the login answer as [{id, email, role, _id}]; [getCurrentUser]
    stores the body of [GET /auth/me] as it comes.  Fields other than
    [id], [email] and [role] are kept as an association list. *)
Module User.
Record t := mk {
  id : string;
  email : string;
  role : string;
  others : list (string * string);
}.
End User.

(** A call of [toast.success] or [toast.error]. *)
Inductive Toast :=
  | ToastSuccess (msg : string)
  | ToastError (msg : string).

(** [localStorage] is a map from keys to strings; [user] is [null] or an
    identity; [location] is the path last navigated to, by the router's
    [navigate] or by an assignment to [window.location.href]; the latter
    also asks the browser for a document load, recorded in [reload]. *)
Record State := mkState {
  localStorage : gmap string string;
  user : option User.t;
  loading : bool;
  location : string;
  reload : bool;
  toasts : list Toast;
}.

(** ** The monad of the model: state, with a log of the states written *)

Definition M (A : Type) : Type := State → A * State * list State.

#[global] Instance M_ret : MRet M := λ A a s, (a, s, []).

#[global] Instance M_bind : MBind M := λ A B k m s,
  let '(a, s1, t1) := m s in
  let '(b, s2, t2) := k a s1 in
  (b, s2, t1 ++ t2).

Definition gets {A : Type} (f : State → A) : M A := λ s, (f s, s, []).

Definition modify (f : State → State) : M unit := λ s, (tt, f s, [f s]).

(** Result, final state, and every state of a run (the first one included). *)
Definition eval {A : Type} (m : M A) (s : State) : A := (m s).1.1.
Definition exec {A : Type} (m : M A) (s : State) : State := (m s).1.2.
Definition states {A : Type} (m : M A) (s : State) : list State := s :: (m s).2.

(** *** Primitive effects *)

(** [localStorage.getItem(k)]: the entry, or [null]. *)
Definition getItem (k : string) : M (option string) :=
  gets (λ s, localStorage s !! k).

Definition setItem (k v : string) : M unit :=
  modify (λ s, mkState (<[k:=v]> (localStorage s)) (user s) (loading s)
                       (location s) (reload s) (toasts s)).

Definition removeItem (k : string) : M unit :=
  modify (λ s, mkState (delete k (localStorage s)) (user s) (loading s)
                       (location s) (reload s) (toasts s)).

Definition setUser (u : option User.t) : M unit :=
  modify (λ s, mkState (localStorage s) u (loading s)
                       (location s) (reload s) (toasts s)).

Definition setLoading (b : bool) : M unit :=
  modify (λ s, mkState (localStorage s) (user s) b
                       (location s) (reload s) (toasts s)).

(** The router's [navigate(to)]. *)
Definition navigate (to : string) : M unit :=
  modify (λ s, mkState (localStorage s) (user s) (loading s)
                       to (reload s) (toasts s)).

(** [window.location.href = to]. *)
Definition set_href (to : string) : M unit :=
  modify (λ s, mkState (localStorage s) (user s) (loading s)
                       to true (toasts s)).

Definition toast (t : Toast) : M unit :=
  modify (λ s, mkState (localStorage s) (user s) (loading s)
                       (location s) (reload s) (toasts s ++ [t])).

(** *** JavaScript values *)

(** Truthiness of a value that is a string or [null]. *)
Definition truthy (v : option string) : bool :=
  match v with
  | Some "" => false
  | Some _ => true
  | None => false
  end.

(** [v || d] for such a value. *)
Definition or_else (v : option string) (d : string) : string :=
  match v with
  | Some w => if truthy v then w else d
  | None => d
  end.

(** ** The HTTP client ([axiosClient]) *)

Record Config := mkConfig {
  method : string;
  url : string;
  headers : gmap string string;
  body : list (string * string);
}.

(** [axios.create({baseURL, headers: {'Content-Type': 'application/json'}})] *)
Definition baseURL : string := "http://localhost:8000/api/v1".

Definition defaultHeaders : gmap string string :=
  {[ "Content-Type" := "application/json" ]}.

(** The body of an error answer: [null], or an object whose [detail] is a
    string or is missing. *)
Inductive ErrorData :=
  | DataNull
  | DataObject (detail : option string).

Record ErrorResponse := mkErrorResponse {
  status : Z;
  data : ErrorData;
}.

(** The error axios rejects with; [response] is missing when no answer
    was received. *)
Record AxiosError := mkAxiosError {
  response : option ErrorResponse;
}.

(** What a rejected call carries: the axios error, or the [TypeError] of a
    property read on [null]. *)
Inductive Thrown :=
  | ThrownError (e : AxiosError)
  | ThrownTypeError.

Inductive Settled (A : Type) :=
  | Fulfilled (a : A)
  | Rejected (e : Thrown).
Arguments Fulfilled {A} a.
Arguments Rejected {A} e.

(** The answer of the server to one request. *)
Inductive Reply (A : Type) :=
  | ReplyOk (a : A)
  | ReplyError (e : AxiosError).
Arguments ReplyOk {A} a.
Arguments ReplyError {A} e.

(** Request interceptor: adds the bearer token when there is one. *)
Definition requestInterceptor (config : Config) : M Config :=
  token ← getItem "access_token";
  if truthy token then
    mret (mkConfig (method config) (url config)
            (<["Authorization" := "Bearer " +:+ default "" token]> (headers config))
            (body config))
  else
    mret config.

(** [data.detail || fallback], which throws when [data] is [null]. *)
Definition detail_or (d : ErrorData) (fallback : string) : option string :=
  match d with
  | DataNull => None
  | DataObject detail => Some (or_else detail fallback)
  end.

(** The toast of a branch that reads [data.detail]: shown, or the read
    throws and the interceptor rejects with that [TypeError]. *)
Definition toast_detail (error : AxiosError) (d : ErrorData) (fallback : string)
    : M Thrown :=
  match detail_or d fallback with
  | Some msg => toast (ToastError msg);; mret (ThrownError error)
  | None => mret ThrownTypeError
  end.

(** Response interceptor, rejection handler. *)
Definition responseError (error : AxiosError) : M Thrown :=
  match response error with
  | Some r =>
      if bool_decide (status r = 401%Z) then
        removeItem "access_token";;
        removeItem "user_role";;
        set_href "/login";;
        toast (ToastError "Session expired. Please login again.");;
        mret (ThrownError error)
      else if bool_decide (status r = 403%Z) then
        toast_detail error (data r) "Permission denied"
      else if bool_decide (status r = 422%Z) then
        toast (ToastError "Invalid input data");;
        mret (ThrownError error)
      else if bool_decide (status r = 500%Z) then
        toast (ToastError "Server error. Please try again later.");;
        mret (ThrownError error)
      else
        toast_detail error (data r) "An error occurred"
  | None =>
      toast (ToastError "Network error. Please check your connection.");;
      mret (ThrownError error)
  end.

(** A call is suspended between [request_send], which runs the request
    interceptor, and [request_receive], which runs the response
    interceptors on the answer. *)
Definition request_send (config : Config) : M Config :=
  requestInterceptor config.

Definition request_receive {A : Type} (reply : Reply A) : M (Settled A) :=
  match reply with
  | ReplyOk a => mret (Fulfilled a)
  | ReplyError e => t ← responseError e; mret (Rejected t)
  end.

Definition request {A : Type} (config : Config) (server : Config → Reply A)
    : M (Settled A) :=
  sent ← request_send config;
  request_receive (server sent).

Definition axios_get (path : string) : Config :=
  mkConfig "get" (baseURL +:+ path) defaultHeaders [].

Definition axios_post (path : string) (payload : list (string * string)) : Config :=
  mkConfig "post" (baseURL +:+ path) defaultHeaders payload.

(** ** The session store and the auth operations ([AuthProvider]) *)

(** The body of a successful [POST /auth/login]. *)
Module LoginData.
Record t := mk {
  access_token : string;
  role : string;
  user_id : string;
}.
End LoginData.

(** [useState(null)], [useState(true)]: the state the provider is mounted
    with, over what the browser kept. *)
Definition mount (storage : gmap string string) (path : string) : State :=
  mkState storage None true path false [].

Definition dashboardRoute (role : string) : string :=
  if String.eqb role "student" then "/student-dashboard"
  else if String.eqb role "recruiter" then "/recruiter-dashboard"
  else if String.eqb role "mentor" then "/mentor-dashboard"
  else "/".

(** [getCurrentUser]: [try { await get } catch { clear } finally { loaded }].
    The [catch] takes whatever the call rejected with. *)
Definition getCurrentUser (server : Config → Reply User.t) : M unit :=
  r ← request (axios_get "/auth/me") server;
  match r with
  | Fulfilled userData =>
      setUser (Some userData);;
      setItem "user_role" (User.role userData)
  | Rejected _ =>
      removeItem "access_token";;
      removeItem "user_role";;
      setUser None
  end;;
  setLoading false.

(** The effect run once after mounting. *)
Definition restore (server : Config → Reply User.t) : M unit :=
  token ← getItem "access_token";
  userRole ← getItem "user_role";
  if truthy token && truthy userRole then getCurrentUser server
  else setLoading false.

(** [login] up to its [await]... *)
Definition login_begin (email password : string) : M Config :=
  request_send (axios_post "/auth/login"
                  [("username", email); ("password", password)]).

(** ...and from the answer on.  The [catch] logs to the console and
    rethrows. *)
Definition login_end (email : string) (reply : Reply LoginData.t)
    : M (Settled unit) :=
  r ← request_receive reply;
  match r with
  | Fulfilled d =>
      setItem "access_token" (LoginData.access_token d);;
      setItem "user_role" (LoginData.role d);;
      setUser (Some (User.mk (LoginData.user_id d) email (LoginData.role d)
                       [("_id", LoginData.user_id d)]));;
      toast (ToastSuccess "Login successful!");;
      navigate (dashboardRoute (LoginData.role d));;
      mret (Fulfilled tt)
  | Rejected e => mret (Rejected e)
  end.

Definition login (email password : string) (server : Config → Reply LoginData.t)
    : M (Settled unit) :=
  sent ← login_begin email password;
  login_end email (server sent).

Definition logout : M unit :=
  removeItem "access_token";;
  removeItem "user_role";;
  setUser None;;
  navigate "/";;
  toast (ToastSuccess "Logged out successfully!").

(** [x !== null] *)
Definition not_null {A : Type} (x : option A) : bool :=
  match x with
  | Some _ => true
  | None => false
  end.

Definition isAuthenticated (s : State) : bool :=
  not_null (user s) && not_null (localStorage s !! "access_token").

(** [user?.role === r] *)
Definition hasRole (r : string) (s : State) : bool :=
  match user s with
  | Some u => String.eqb (User.role u) r
  | None => false
  end.

Definition isStudent : State → bool := hasRole "student".
Definition isRecruiter : State → bool := hasRole "recruiter".
Definition isMentor : State → bool := hasRole "mentor".

(** ** The router ([AppRoutes]) *)

Inductive View :=
  | LoadingView
  | LoginPage
  | StudentDashboard
  | RecruiterDashboard
  | MentorDashboard.

(** What the router returns for a location: markup, or [<Navigate to=...>]. *)
Inductive Element :=
  | Render (v : View)
  | Navigate (to : string).

(** The [<Route path=...>] entries of [AppRoutes]. *)
Inductive RoutePath :=
  | PathLogin
  | PathStudentDashboard
  | PathRecruiterDashboard
  | PathMentorDashboard
  | PathRoot
  | PathAny.

(** The entry a location selects: the one whose path it is, and the
    catch-all otherwise.  (The matcher of the routing library also accepts
    another letter case and a trailing slash; the targets of the redirects
    below are written as the entries are.) *)
Definition matchRoute (path : string) : RoutePath :=
  if String.eqb path "/login" then PathLogin
  else if String.eqb path "/student-dashboard" then PathStudentDashboard
  else if String.eqb path "/recruiter-dashboard" then PathRecruiterDashboard
  else if String.eqb path "/mentor-dashboard" then PathMentorDashboard
  else if String.eqb path "/" then PathRoot
  else PathAny.

(** The [element] of each entry. *)
Definition element (s : State) (p : RoutePath) : Element :=
  match p with
  | PathLogin =>
      if negb (isAuthenticated s) then Render LoginPage else Navigate "/"
  | PathStudentDashboard =>
      if isAuthenticated s && isStudent s then Render StudentDashboard
      else Navigate "/login"
  | PathRecruiterDashboard =>
      if isAuthenticated s && isRecruiter s then Render RecruiterDashboard
      else Navigate "/login"
  | PathMentorDashboard =>
      if isAuthenticated s && isMentor s then Render MentorDashboard
      else Navigate "/login"
  | PathRoot =>
      if isAuthenticated s then
        if isStudent s then Navigate "/student-dashboard"
        else if isRecruiter s then Navigate "/recruiter-dashboard"
        else if isMentor s then Navigate "/mentor-dashboard"
        else Navigate "/login"
      else Navigate "/login"
  | PathAny => Navigate "/"
  end.

Definition AppRoutes (s : State) (path : string) : Element :=
  if loading s then Render LoadingView
  else element s (matchRoute path).

(** Following [<Navigate>] elements from a location, the session being what
    it is: the location and view reached, if one is within [fuel]
    evaluations of [AppRoutes]. *)
Fixpoint resolve (fuel : nat) (s : State) (path : string) : option (string * View) :=
  match fuel with
  | O => None
  | S n =>
      match AppRoutes s path with
      | Render v => Some (path, v)
      | Navigate to => resolve n s to
      end
  end.

(** The views behind an authentication check. *)
Definition protected (v : View) : bool :=
  match v with
  | StudentDashboard | RecruiterDashboard | MentorDashboard => true
  | LoadingView | LoginPage => false
  end.

(** The role the guard of an entry asks for. *)
Definition requiredRole (p : RoutePath) : option string :=
  match p with
  | PathStudentDashboard => Some "student"
  | PathRecruiterDashboard => Some "recruiter"
  | PathMentorDashboard => Some "mentor"
  | PathLogin | PathRoot | PathAny => None
  end.

(** The dashboard of a role of the fixed set. *)
Definition dashboardView (role : string) : option View :=
  if String.eqb role "student" then Some StudentDashboard
  else if String.eqb role "recruiter" then Some RecruiterDashboard
  else if String.eqb role "mentor" then Some MentorDashboard
  else None.

(** ** Registration ([registerStudent], [registerRecruiter], [registerMentor]) *)

(** The three functions have one body, over three endpoints: the answer of
    the server is not looked at, a success is announced and followed by a
    navigation to the login route, a failure is logged and rethrown. *)
Definition register_at {A : Type} (path : string) (formData : list (string * string))
    (server : Config → Reply A) : M (Settled unit) :=
  r ← request (axios_post path formData) server;
  match r with
  | Fulfilled _ =>
      toast (ToastSuccess "Registration successful! Please login.");;
      navigate "/login";;
      mret (Fulfilled tt)
  | Rejected e => mret (Rejected e)
  end.

Definition registerStudent {A : Type} := @register_at A "/auth/student/signup".
Definition registerRecruiter {A : Type} := @register_at A "/auth/recruiter/signup".
Definition registerMentor {A : Type} := @register_at A "/auth/mentor/signup".

(** ** The button component ([Button]) *)

Module Button.
(** The props the component's logic reads; [onClick] may be missing. *)
Record Props := mk {
  disabled : bool;
  loading : bool;
  onClick : option (M unit);
}.

(** [if (!loading && !disabled && onClick) onClick()] *)
Definition handleClick (p : Props) : M unit :=
  match onClick p with
  | Some f => if negb (loading p) && negb (disabled p) then f else mret tt
  | None => mret tt
  end.

(** The [disabled] attribute of the rendered button: [disabled || loading]. *)
Definition disabledAttribute (p : Props) : bool := disabled p || loading p.

(** The spinner is rendered when [loading]. *)
Definition showsSpinner (p : Props) : bool := loading p.
End Button.

(** ** The login page ([LoginPage]) *)

Module LoginForm.
(** The two [useState] cells of the component. *)
Record Local := mk {
  showPassword : bool;
  isLoading : bool;
}.

Definition initial : Local := mk false false.

(** [setShowPassword(!showPassword)] *)
Definition toggleShowPassword (l : Local) : Local :=
  mk (negb (showPassword l)) (isLoading l).

(** The [type] of the password input. *)
Definition passwordInputType (l : Local) : string :=
  if showPassword l then "text" else "password".

(** [onSubmit] up to the [await]: [setIsLoading(true)]. *)
Definition onSubmit_begin (l : Local) : Local := mk (showPassword l) true.

(** [onSubmit]: the [catch] is empty, the [finally] resets [isLoading]. *)
Definition onSubmit (email password : string) (server : Config → Reply LoginData.t)
    (l : Local) : M (Settled unit * Local) :=
  let pending := onSubmit_begin l in
  r ← login email password server;
  mret (Fulfilled tt, mk (showPassword pending) false).

(** The props of the submit button: [loading={isLoading}], no [onClick]. *)
Definition submitButton (l : Local) : Button.Props :=
  Button.mk false (isLoading l) None.

End LoginForm.

(** ** Consistency of a session *)

(** An identity in memory comes with a stored token and with the stored
    role hint of its role. *)
Definition session_ok (s : State) : Prop :=
  ∀ u, user s = Some u →
       is_Some (localStorage s !! "access_token") ∧
       localStorage s !! "user_role" = Some (User.role u).

(** ** Runs and their invariants *)

(** A run from a state of [P] writes states of [P] only, ends in one, and
    returns a result of [Q]. *)
Definition maintains {A : Type} (P : State → Prop) (Q : A → Prop) (m : M A) : Prop :=
  ∀ s, P s → P (exec m s) ∧ Forall P (m s).2 ∧ Q (eval m s).

(** The sessions that hold no identity. *)
Definition no_identity (s : State) : Prop := user s = None.

(** ** A logout while a login is pending *)

(** The three steps in the order they run: the login is sent, [logout]
    runs, the answer of the login arrives. *)
Definition logout_during_login (email password : string)
    (reply : Reply LoginData.t) : M (Settled unit) :=
  login_begin email password;;
  logout;;
  login_end email reply.

(** ** Sessions used as examples *)

Definition alex : User.t :=
  User.mk "u1" "alex@example.com" "student" [("_id", "u1")].

Definition riley : User.t :=
  User.mk "u2" "riley@example.com" "recruiter" [("_id", "u2")].

Definition sam : User.t :=
  User.mk "u3" "sam@example.com" "admin" [("_id", "u3")].

Definition session_of (u : User.t) (token : string) (path : string) : State :=
  mkState {[ "access_token" := token; "user_role" := User.role u ]}
          (Some u) false path false [].

Definition anonymous (path : string) : State :=
  mkState ∅ None false path false [].

Definition unauthorized : AxiosError :=
  mkAxiosError (Some (mkErrorResponse 401 (DataObject (Some "Could not validate credentials")))).

Definition forbidden : AxiosError :=
  mkAxiosError (Some (mkErrorResponse 403 (DataObject (Some "Need 5 badges")))).

(** ** Reasoning about runs *)

(** Unfolds a run of the monad down to the primitive state changes. *)
Ltac run :=
  unfold exec, eval, states, mbind, mret, M_bind, M_ret,
    getItem, setItem, removeItem, setUser, setLoading, navigate, set_href,
    toast, gets, modify in *;
  cbn [fst snd localStorage user loading location reload toasts] in *.

Section Maintains.
Context (P : State → Prop).

Lemma maintains_ret {A : Type} (Q : A → Prop) (a : A) :
  Q a → maintains P Q (mret a).
Proof. intros Ha s Hs. split; [exact Hs | split; [constructor | exact Ha]]. Qed.

Lemma maintains_gets {A : Type} (Q : A → Prop) (f : State → A) :
  (∀ s, P s → Q (f s)) → maintains P Q (gets f).
Proof.
  intros Hf s Hs. split; [exact Hs | split; [constructor | by apply Hf]].
Qed.

Lemma maintains_modify (Q : unit → Prop) (f : State → State) :
  (∀ s, P s → P (f s)) → Q tt → maintains P Q (modify f).
Proof.
  intros Hf Hq s Hs. split; [apply Hf, Hs |]. split; [| exact Hq].
  constructor; [apply Hf, Hs | constructor].
Qed.

Lemma maintains_bind {A B : Type} (Q : A → Prop) (R : B → Prop)
    (m : M A) (k : A → M B) :
  maintains P Q m → (∀ a, Q a → maintains P R (k a)) →
  maintains P R (m ≫= k).
Proof.
  intros Hm Hk s Hs. destruct (Hm s Hs) as (H1 & H2 & H3).
  unfold exec, eval, mbind, M_bind in *.
  destruct (m s) as [[a s1] t1]. cbn in H1, H2, H3.
  specialize (Hk a H3 s1 H1). unfold exec, eval in Hk.
  destruct (k a s1) as [[b s2] t2]. cbn in *.
  destruct Hk as (H4 & H5 & H6).
  split; [exact H4 | split; [by apply Forall_app | exact H6]].
Qed.

Lemma maintains_weaken {A : Type} (Q Q' : A → Prop) (m : M A) :
  (∀ a, Q a → Q' a) → maintains P Q m → maintains P Q' m.
Proof.
  intros Hq Hm s Hs. destruct (Hm s Hs) as (H1 & H2 & H3). auto.
Qed.

Lemma maintains_states {A : Type} (Q : A → Prop) (m : M A) (s : State) :
  maintains P Q m → P s → Forall P (states m s).
Proof. intros Hm Hs. constructor; [exact Hs | apply (Hm s Hs)]. Qed.
End Maintains.

Lemma exec_bind {A B : Type} (m : M A) (k : A → M B) (s : State) :
  exec (m ≫= k) s = exec (k (eval m s)) (exec m s).
Proof.
  unfold exec, eval, mbind, M_bind. destruct (m s) as [[a s1] t1]. cbn.
  by destruct (k a s1) as [[b s2] t2].
Qed.

(** ** The role-to-route mapping *)

Lemma dashboardRoute_other (role : string) :
  role ≠ "student" → role ≠ "recruiter" → role ≠ "mentor" →
  dashboardRoute role = "/".
Proof.
  intros H1 H2 H3. unfold dashboardRoute.
  apply String.eqb_neq in H1, H2, H3. by rewrite H1, H2, H3.
Qed.

(** C6. [dashboardRoute] is defined on every role string: each of student,
    recruiter and mentor has its dashboard route, and every other string is
    sent to the entry route ["/"], the one [logout] navigates to. *)
Theorem dashboardRoute_total :
  dashboardRoute "student" = "/student-dashboard" ∧
  dashboardRoute "recruiter" = "/recruiter-dashboard" ∧
  dashboardRoute "mentor" = "/mentor-dashboard" ∧
  (∀ role : string,
     role ∉ ["student"; "recruiter"; "mentor"] →
     dashboardRoute role = "/" ∧
     ∀ s, location (exec logout s) = dashboardRoute role).
Proof.
  repeat split; try reflexivity.
  - apply dashboardRoute_other; intros ->; apply H; set_solver.
  - intros s. rewrite dashboardRoute_other; [done | | |];
      intros ->; apply H; set_solver.
Qed.

Lemma dashboardRoute_total_witness :
  ("admin" ∉ ["student"; "recruiter"; "mentor"]) ∧ dashboardRoute "admin" = "/".
Proof.
  assert (Hout : "admin" ∉ ["student"; "recruiter"; "mentor"]).
  { rewrite !not_elem_of_cons. repeat split; try discriminate. apply not_elem_of_nil. }
  split; [exact Hout |].
  exact (proj1 (proj2 (proj2 (proj2 dashboardRoute_total)) "admin" Hout)).
Defined.

(** ** The authentication predicate *)

Lemma not_null_true {A : Type} (x : option A) : not_null x = true ↔ x ≠ None.
Proof. destruct x; cbn; split; intros; congruence. Qed.

(** C8. [isAuthenticated()] is true exactly when the identity is not null
    and [localStorage] has an [access_token] entry; with the identity
    alone set to null, or the entry alone removed, it is false. *)
Theorem isAuthenticated_iff (s : State) :
  (isAuthenticated s = true ↔
     user s ≠ None ∧ localStorage s !! "access_token" ≠ None) ∧
  isAuthenticated (exec (setUser None) s) = false ∧
  isAuthenticated (exec (removeItem "access_token") s) = false.
Proof.
  split; [| split].
  - unfold isAuthenticated. rewrite andb_true_iff, !not_null_true. done.
  - reflexivity.
  - run. unfold isAuthenticated. cbn. rewrite lookup_delete_eq.
    apply andb_false_r.
Qed.

(** ** Logout *)

Lemma logout_exec (s : State) :
  exec logout s =
    mkState (delete "user_role" (delete "access_token" (localStorage s)))
            None (loading s) "/" (reload s)
            (toasts s ++ [ToastSuccess "Logged out successfully!"]).
Proof. reflexivity. Qed.

(** C9. [logout] has no failing outcome: from every state it ends with
    both entries removed, the identity null and the location ["/"].  Run
    twice, it ends with the same identity, the same [localStorage] and the
    same location as run once (the second run shows its toast again). *)
Theorem logout_idempotent (s : State) :
  let once := exec logout s in
  let twice := exec (logout;; logout) s in
  (localStorage once !! "access_token" = None ∧
   localStorage once !! "user_role" = None ∧
   user once = None ∧
   location once = "/" ∧
   isAuthenticated once = false) ∧
  (user twice = user once ∧
   localStorage twice = localStorage once ∧
   location twice = location once ∧
   loading twice = loading once ∧
   reload twice = reload once).
Proof.
  cbn zeta.
  assert (Htwice : exec (logout;; logout) s = exec logout (exec logout s))
    by reflexivity.
  rewrite Htwice, !logout_exec. cbn.
  repeat split.
  - rewrite lookup_delete_ne by done. apply lookup_delete_eq.
  - apply lookup_delete_eq.
  - rewrite (delete_id _ "access_token").
    + apply delete_delete_eq.
    + rewrite lookup_delete_ne by done. apply lookup_delete_eq.
Qed.

(** ** The response interceptor *)

Lemma responseError_401_exec (s : State) (error : AxiosError) (r : ErrorResponse) :
  response error = Some r → status r = 401%Z →
  responseError error s =
    (ThrownError error,
     mkState (delete "user_role" (delete "access_token" (localStorage s)))
             (user s) (loading s) "/login" true
             (toasts s ++ [ToastError "Session expired. Please login again."]),
     (responseError error s).2).
Proof.
  intros Hr H401. unfold responseError. rewrite Hr, H401. reflexivity.
Qed.

(** What the branches other than 401 do to the state: at most one more
    toast. *)
Lemma responseError_other_exec (s : State) (error : AxiosError) :
  (∀ r, response error = Some r → status r ≠ 401%Z) →
  ∃ ts, exec (responseError error) s =
          mkState (localStorage s) (user s) (loading s) (location s) (reload s)
                  (toasts s ++ ts).
Proof.
  intros Hne. unfold responseError.
  destruct (response error) as [r|] eqn:Hr.
  - rewrite bool_decide_eq_false_2 by (by apply Hne).
    repeat case_bool_decide;
      try (eexists [_]; reflexivity);
      unfold toast_detail; destruct (detail_or _ _);
      try (eexists [_]; reflexivity);
      exists []; run; rewrite app_nil_r; by destruct s.
  - eexists [_]. reflexivity.
Qed.

(** C1, as the client does it.  On an answer with status 401 the rejection
    handler removes the [access_token] and [user_role] entries, sends the
    browser to ["/login"] by a document load, and then rejects with the
    error it was given.  It does not touch the in-memory identity, which is
    as it was when the caller sees the rejection; [isAuthenticated()] is
    false from then on all the same, the token being gone, and the provider
    mounted by the document load starts from a null identity and, once
    restored, shows the login page. *)
Theorem responseError_401 (s : State) (error : AxiosError) (r : ErrorResponse)
    (Hr : response error = Some r) (H401 : status r = 401%Z) :
  let s' := exec (responseError error) s in
  eval (responseError error) s = ThrownError error ∧
  localStorage s' !! "access_token" = None ∧
  localStorage s' !! "user_role" = None ∧
  (∀ k, k ≠ "access_token" → k ≠ "user_role" →
        localStorage s' !! k = localStorage s !! k) ∧
  location s' = "/login" ∧
  reload s' = true ∧
  user s' = user s ∧
  isAuthenticated s' = false ∧
  (∀ server,
     let s'' := exec (restore server) (mount (localStorage s') (location s')) in
     user s'' = None ∧ AppRoutes s'' (location s'') = Render LoginPage).
Proof.
  cbn zeta. unfold exec, eval.
  rewrite (responseError_401_exec s error r Hr H401). cbn [fst snd].
  cbn [localStorage user location reload].
  assert (Htok : delete "user_role" (delete "access_token" (localStorage s))
                   !! "access_token" = None).
  { rewrite lookup_delete_ne by done. apply lookup_delete_eq. }
  repeat split.
  - exact Htok.
  - apply lookup_delete_eq.
  - intros k H1 H2. by rewrite !lookup_delete_ne.
  - unfold isAuthenticated. cbn. rewrite Htok. apply andb_false_r.
  - unfold restore, mount. run. by rewrite Htok.
  - unfold restore, mount. run. by rewrite Htok.
Qed.

Lemma responseError_401_witness :
  response unauthorized = Some (mkErrorResponse 401 (DataObject (Some "Could not validate credentials"))) ∧
  user (exec (responseError unauthorized) (session_of alex "tok1" "/student-dashboard"))
    = Some alex ∧
  location (exec (responseError unauthorized) (session_of alex "tok1" "/student-dashboard"))
    = "/login".
Proof.
  pose proof (responseError_401 (session_of alex "tok1" "/student-dashboard")
                unauthorized _ eq_refl eq_refl) as H.
  cbn zeta in H. split; [reflexivity |]. split; [apply H | apply H].
Defined.

(** C1 as stated fails: after the 401 handling of a request made by a
    signed-in student the identity is still that student, not null. *)
Lemma responseError_401_keeps_identity :
  let s' := exec (responseError unauthorized)
                 (session_of alex "tok1" "/student-dashboard") in
  eval (responseError unauthorized) (session_of alex "tok1" "/student-dashboard")
    = ThrownError unauthorized ∧
  user s' = Some alex ∧
  user s' ≠ None.
Proof. cbn zeta. repeat split. discriminate. Qed.

(** The header the request interceptor sets depends on [localStorage]
    alone. *)
Lemma requestInterceptor_storage (s1 s2 : State) (config : Config) :
  localStorage s1 = localStorage s2 →
  eval (requestInterceptor config) s1 = eval (requestInterceptor config) s2.
Proof.
  intros H. unfold requestInterceptor. run. cbn. rewrite H.
  by destruct (truthy _).
Qed.

(** C5. On an answer with status 403 the handler shows the message the
    server sent and changes nothing of the session: [localStorage], the
    identity, [loading] and the location are as before, so the next
    request gets the same [Authorization] header. *)
Theorem responseError_403 (s : State) (error : AxiosError) (r : ErrorResponse)
    (Hr : response error = Some r) (H403 : status r = 403%Z) :
  let s' := exec (responseError error) s in
  (localStorage s' = localStorage s ∧
   user s' = user s ∧
   loading s' = loading s ∧
   location s' = location s ∧
   reload s' = reload s ∧
   isAuthenticated s' = isAuthenticated s) ∧
  (∀ config,
     eval (request_send config) s' = eval (request_send config) s) ∧
  (∀ msg, data r = DataObject (Some msg) → msg ≠ "" →
     toasts s' = toasts s ++ [ToastError msg] ∧
     eval (responseError error) s = ThrownError error).
Proof.
  cbn zeta.
  destruct (responseError_other_exec s error) as [ts Hts].
  { intros r' Hr'. rewrite Hr in Hr'. injection Hr' as <-. rewrite H403. done. }
  split; [| split].
  - rewrite Hts. done.
  - intros config. apply requestInterceptor_storage. by rewrite Hts.
  - intros msg Hdata Hmsg. unfold exec, eval, responseError.
    rewrite Hr, H403. cbn. unfold toast_detail, detail_or. rewrite Hdata.
    destruct msg; [done | split; reflexivity].
Qed.

Lemma responseError_403_witness :
  let s := session_of riley "tok2" "/recruiter-dashboard" in
  let s' := exec (responseError forbidden) s in
  status (mkErrorResponse 403 (DataObject (Some "Need 5 badges"))) = 403%Z ∧
  localStorage s' = localStorage s ∧
  user s' = Some riley ∧
  toasts s' = [ToastError "Need 5 badges"] ∧
  headers (eval (request_send (axios_get "/mentor-interviews/available-mentors")) s')
    !! "Authorization" = Some "Bearer tok2".
Proof.
  cbn zeta.
  pose proof (responseError_403 (session_of riley "tok2" "/recruiter-dashboard")
                forbidden _ eq_refl eq_refl) as H.
  cbn zeta in H. destruct H as [(H1 & H2 & _) [H3 H4]].
  split; [reflexivity |]. split; [exact H1 |]. split; [exact H2 |].
  split.
  - exact (proj1 (H4 "Need 5 badges" eq_refl ltac:(discriminate))).
  - rewrite H3. reflexivity.
Defined.

(** ** Login *)

(** The request interceptor writes nothing. *)
Lemma request_send_exec (s : State) (config : Config) :
  exec (request_send config) s = s ∧ (request_send config s).2 = [].
Proof.
  unfold request_send, requestInterceptor. run. cbn.
  by destruct (truthy _).
Qed.

Lemma login_end_ok_exec (s : State) (email : string) (d : LoginData.t) :
  exec (login_end email (ReplyOk d)) s =
    mkState (<["user_role" := LoginData.role d]>
               (<["access_token" := LoginData.access_token d]> (localStorage s)))
            (Some (User.mk (LoginData.user_id d) email (LoginData.role d)
                     [("_id", LoginData.user_id d)]))
            (loading s) (dashboardRoute (LoginData.role d)) (reload s)
            (toasts s ++ [ToastSuccess "Login successful!"]) ∧
  eval (login_end email (ReplyOk d)) s = Fulfilled tt.
Proof. split; reflexivity. Qed.

Lemma login_split (s : State) (email password : string)
    (server : Config → Reply LoginData.t) :
  exec (login email password server) s =
    exec (login_end email (server (eval (login_begin email password) s))) s ∧
  eval (login email password server) s =
    eval (login_end email (server (eval (login_begin email password) s))) s.
Proof.
  destruct (request_send_exec s
              (axios_post "/auth/login" [("username", email); ("password", password)]))
    as [Hs _].
  unfold login, login_begin, exec, eval, mbind, M_bind in *.
  destruct (request_send _ s) as [[sent s1] t1]. cbn in Hs. subst s1. cbn.
  by destruct (login_end email (server sent) s) as [[b s2] t2].
Qed.

(** C3. A login whose request is answered with [{access_token, role,
    user_id}] stores the token under [access_token] and the role under
    [user_role], sets the identity to [{id: user_id, email, role}] (with
    [_id] a second copy of the id) and navigates to the dashboard route of
    the role; the session is then authenticated with that role. *)
Theorem login_success (s : State) (email password : string)
    (server : Config → Reply LoginData.t) (d : LoginData.t)
    (Hok : server (eval (login_begin email password) s) = ReplyOk d) :
  let s' := exec (login email password server) s in
  eval (login email password server) s = Fulfilled tt ∧
  localStorage s' !! "access_token" = Some (LoginData.access_token d) ∧
  localStorage s' !! "user_role" = Some (LoginData.role d) ∧
  user s' = Some (User.mk (LoginData.user_id d) email (LoginData.role d)
                    [("_id", LoginData.user_id d)]) ∧
  location s' = dashboardRoute (LoginData.role d) ∧
  isAuthenticated s' = true ∧
  hasRole (LoginData.role d) s' = true.
Proof.
  cbn zeta. destruct (login_split s email password server) as [-> ->].
  rewrite Hok. destruct (login_end_ok_exec s email d) as [-> ->].
  cbn [localStorage user location].
  assert (Htok : <["user_role" := LoginData.role d]>
                   (<["access_token" := LoginData.access_token d]> (localStorage s))
                   !! "access_token" = Some (LoginData.access_token d)).
  { rewrite lookup_insert_ne by done. apply lookup_insert_eq. }
  repeat split.
  - exact Htok.
  - apply lookup_insert_eq.
  - unfold isAuthenticated. cbn. by rewrite Htok.
  - unfold hasRole. cbn. apply String.eqb_refl.
Qed.

(** The scenario of the specification: Alex signs in from the login page. *)
Lemma login_success_witness :
  let server : Config → Reply LoginData.t :=
    λ _, ReplyOk (LoginData.mk "tok1" "student" "u1") in
  let s' := exec (login "alex@example.com" "password123" server) (anonymous "/login") in
  server (eval (login_begin "alex@example.com" "password123") (anonymous "/login"))
    = ReplyOk (LoginData.mk "tok1" "student" "u1") ∧
  localStorage s' !! "access_token" = Some "tok1" ∧
  localStorage s' !! "user_role" = Some "student" ∧
  user s' = Some alex ∧
  location s' = "/student-dashboard" ∧
  isAuthenticated s' = true ∧
  isStudent s' = true.
Proof.
  cbn zeta.
  pose proof (login_success (anonymous "/login") "alex@example.com" "password123"
                (λ _, ReplyOk (LoginData.mk "tok1" "student" "u1"))
                (LoginData.mk "tok1" "student" "u1") eq_refl) as H.
  cbn zeta in H. destruct H as (_ & H1 & H2 & H3 & H4 & H5 & H6).
  split; [reflexivity |]. repeat split; assumption.
Defined.

(** ** The late answer of a login *)

(** C4 as stated fails: Riley signs out while a login of Alex is pending;
    when that login is answered the session is Alex's, with the token
    stored, and not anonymous. *)
Lemma late_login_not_discarded :
  let s' := exec (logout_during_login "alex@example.com" "password123"
                    (ReplyOk (LoginData.mk "tok1" "student" "u1")))
                 (session_of riley "tok2" "/recruiter-dashboard") in
  isAuthenticated s' = true ∧
  user s' = Some alex ∧
  localStorage s' !! "access_token" = Some "tok1" ∧
  localStorage s' !! "user_role" = Some "student" ∧
  ¬ (user s' = None ∧ localStorage s' !! "access_token" = None ∧
     localStorage s' !! "user_role" = None).
Proof.
  cbn zeta. repeat split; try by vm_compute.
  intros (H & _). vm_compute in H. discriminate.
Qed.

(** C4, as the code does it.  Nothing ties a login to the session it was
    started in: when [logout] runs while a login is pending and the login
    is then answered successfully, the effects of the login are applied on
    top of those of the logout.  The final session has the token and role
    of the answer stored and the identity of the login, at the dashboard
    route of its role. *)
Theorem late_login_wins (s : State) (email password : string) (d : LoginData.t) :
  let s' := exec (logout_during_login email password (ReplyOk d)) s in
  localStorage s' !! "access_token" = Some (LoginData.access_token d) ∧
  localStorage s' !! "user_role" = Some (LoginData.role d) ∧
  user s' = Some (User.mk (LoginData.user_id d) email (LoginData.role d)
                    [("_id", LoginData.user_id d)]) ∧
  location s' = dashboardRoute (LoginData.role d) ∧
  isAuthenticated s' = true ∧
  s' = exec (login_end email (ReplyOk d)) (exec logout s).
Proof.
  cbn zeta.
  assert (Hrun : exec (logout_during_login email password (ReplyOk d)) s
                 = exec (login_end email (ReplyOk d)) (exec logout s)).
  { destruct (request_send_exec s
                (axios_post "/auth/login" [("username", email); ("password", password)]))
      as [Hs _].
    unfold logout_during_login, login_begin, exec, mbind, M_bind in *.
    destruct (request_send _ s) as [[sent s1] t1]. cbn in Hs. subst s1.
    reflexivity. }
  rewrite Hrun. destruct (login_end_ok_exec (exec logout s) email d) as [-> _].
  cbn [localStorage user location].
  assert (Htok : <["user_role" := LoginData.role d]>
                   (<["access_token" := LoginData.access_token d]>
                      (localStorage (exec logout s)))
                   !! "access_token" = Some (LoginData.access_token d)).
  { rewrite lookup_insert_ne by done. apply lookup_insert_eq. }
  repeat split.
  - exact Htok.
  - apply lookup_insert_eq.
  - unfold isAuthenticated. cbn. by rewrite Htok.
Qed.

(** ** Restoration of the session *)

(** Proves [maintains] goals over the primitives by the rules above. *)
Ltac maintain :=
  unfold getItem, setItem, removeItem, setLoading, navigate, set_href, toast;
  repeat first
    [ apply maintains_ret; try exact I
    | apply maintains_gets; intros; try exact I
    | apply maintains_modify; [intros ? ?; assumption | try exact I]
    | eapply maintains_bind with (Q := λ _, True); [| intros ? ?] ].

Lemma responseError_no_identity (error : AxiosError) :
  maintains no_identity (λ _, True) (responseError error).
Proof.
  unfold responseError, toast_detail.
  destruct (response error) as [r|]; repeat case_bool_decide;
    try destruct (detail_or _ _); maintain.
Qed.

Lemma request_fails_no_identity {A : Type} (config : Config)
    (server : Config → Reply A) :
  (∀ c, ∃ e, server c = ReplyError e) →
  maintains no_identity (λ r, ∃ t, r = Rejected t) (request config server).
Proof.
  intros Hfail. unfold request, request_send, requestInterceptor.
  eapply maintains_bind with (Q := λ _, True).
  - eapply maintains_bind with (Q := λ _, True); [maintain |].
    intros token _. destruct (truthy token); maintain.
  - intros sent _. destruct (Hfail sent) as [e ->]. unfold request_receive.
    eapply maintains_bind; [apply responseError_no_identity |].
    intros t _. apply maintains_ret. by exists t.
Qed.

Lemma getCurrentUser_fails_no_identity (server : Config → Reply User.t) :
  (∀ c, ∃ e, server c = ReplyError e) →
  maintains no_identity (λ _, True) (getCurrentUser server).
Proof.
  intros Hfail. unfold getCurrentUser.
  eapply maintains_bind; [by apply request_fails_no_identity |].
  intros r [t ->]. cbn beta iota.
  eapply maintains_bind with (Q := λ _, True); [| intros; maintain].
  eapply maintains_bind with (Q := λ _, True); [maintain |]. intros _ _.
  eapply maintains_bind with (Q := λ _, True); [maintain |]. intros _ _.
  unfold setUser. by apply maintains_modify.
Qed.

Lemma restore_fails_no_identity (server : Config → Reply User.t) :
  (∀ c, ∃ e, server c = ReplyError e) →
  maintains no_identity (λ _, True) (restore server).
Proof.
  intros Hfail. unfold restore.
  eapply maintains_bind with (Q := λ _, True); [maintain |]. intros token _.
  eapply maintains_bind with (Q := λ _, True); [maintain |]. intros userRole _.
  destruct (truthy token && truthy userRole).
  - by apply getCurrentUser_fails_no_identity.
  - maintain.
Qed.

(** [restore] ends with [loading] false, whatever the server answers. *)
Lemma restore_loaded (server : Config → Reply User.t) (s : State) :
  loading (exec (restore server) s) = false.
Proof.
  unfold restore. rewrite !exec_bind.
  destruct (truthy _ && truthy _); [| reflexivity].
  unfold getCurrentUser. rewrite !exec_bind. reflexivity.
Qed.

(** Without an identity the router renders no protected view. *)
Lemma AppRoutes_no_identity (s : State) (path : string) (v : View) :
  no_identity s → AppRoutes s path = Render v → protected v = false.
Proof.
  unfold no_identity, AppRoutes, element, isAuthenticated. intros ->. cbn.
  destruct (loading s); [by intros [= <-] |].
  destruct (matchRoute path); cbn; by intros [= <-].
Qed.

(** C7. While [loading] is true the router renders the loading view for
    every location.  When the provider is mounted and every request of the
    restoration is answered with an error, none of the states the
    restoration passes through, from mounting to its end, makes the router
    render a protected view, for any location; the restoration ends, with
    [loading] false and the session not authenticated. *)
Theorem restore_never_shows_protected :
  (∀ s path, loading s = true → AppRoutes s path = Render LoadingView) ∧
  (∀ storage at_path (server : Config → Reply User.t),
     (∀ c, ∃ e, server c = ReplyError e) →
     (∀ s, s ∈ states (restore server) (mount storage at_path) →
        ∀ path v, AppRoutes s path = Render v → protected v = false) ∧
     loading (exec (restore server) (mount storage at_path)) = false ∧
     isAuthenticated (exec (restore server) (mount storage at_path)) = false).
Proof.
  split.
  - intros s path Hl. unfold AppRoutes. by rewrite Hl.
  - intros storage at_path server Hfail.
    pose proof (restore_fails_no_identity server Hfail) as Hm.
    assert (H0 : no_identity (mount storage at_path)) by reflexivity.
    split; [| split].
    + intros s Hs path v. apply AppRoutes_no_identity.
      pose proof (maintains_states _ _ _ _ Hm H0) as Hall.
      rewrite Forall_forall in Hall. by apply Hall.
    + apply restore_loaded.
    + destruct (Hm _ H0) as (Hend & _).
      unfold isAuthenticated. unfold no_identity in Hend. by rewrite Hend.
Qed.

(** A stored token that the server no longer accepts, the student
    dashboard being asked for: nine states from mounting to the end, the
    loading view until the last, which is sent to the login page. *)
Lemma restore_never_shows_protected_witness :
  let storage : gmap string string :=
    {[ "access_token" := "expired"; "user_role" := "student" ]} in
  let server : Config → Reply User.t := λ _, ReplyError unauthorized in
  loading (mount storage "/student-dashboard") = true ∧
  AppRoutes (mount storage "/student-dashboard") "/student-dashboard"
    = Render LoadingView ∧
  (∀ c, ∃ e, server c = ReplyError e) ∧
  length (states (restore server) (mount storage "/student-dashboard")) = 9 ∧
  Forall (λ s, ∀ v, AppRoutes s "/student-dashboard" = Render v → protected v = false)
         (states (restore server) (mount storage "/student-dashboard")) ∧
  AppRoutes (exec (restore server) (mount storage "/student-dashboard"))
            "/student-dashboard" = Navigate "/login".
Proof.
  cbn zeta.
  destruct restore_never_shows_protected as [Hload Hfail].
  assert (Hsrv : ∀ c : Config, ∃ e, (λ _ : Config, @ReplyError User.t unauthorized) c
                                     = ReplyError e)
    by (intros c; by exists unauthorized).
  split; [reflexivity |].
  split; [apply Hload; reflexivity |].
  split; [exact Hsrv |].
  split; [reflexivity |].
  split; [| reflexivity].
  rewrite Forall_forall. intros s Hs v.
  exact (proj1 (Hfail _ "/student-dashboard" _ Hsrv) s Hs "/student-dashboard" v).
Defined.

(** ** Redirects *)

Lemma resolve_navigate (n : nat) (s : State) (path to : string) :
  AppRoutes s path = Navigate to → resolve (S n) s path = resolve n s to.
Proof. intros H. cbn [resolve]. by rewrite H. Qed.

Lemma resolve_render (n : nat) (s : State) (path : string) (v : View) :
  AppRoutes s path = Render v → resolve (S n) s path = Some (path, v).
Proof. intros H. cbn [resolve]. by rewrite H. Qed.

Lemma isAuthenticated_intro (s : State) (u : User.t) :
  user s = Some u → is_Some (localStorage s !! "access_token") →
  isAuthenticated s = true.
Proof. intros Hu [t Ht]. unfold isAuthenticated. by rewrite Hu, Ht. Qed.

Lemma hasRole_user (s : State) (u : User.t) (r : string) :
  user s = Some u → hasRole r s = String.eqb (User.role u) r.
Proof. intros Hu. unfold hasRole. by rewrite Hu. Qed.

(** Rewrites the role predicates of a session whose role is known. *)
Ltac roles Hu :=
  unfold isStudent, isRecruiter, isMentor;
  repeat (erewrite hasRole_user by exact Hu).

(** C2, as the router does it.  For a signed-in user whose role is student,
    recruiter or mentor, a location guarded by another role redirects to
    ["/login"], which redirects to ["/"], which redirects to the dashboard
    route of the user's role; that dashboard is rendered there, three
    redirects after the request. *)
Theorem wrong_role_redirect_chain (s : State) (u : User.t) (path other : string)
    (Hloaded : loading s = false)
    (Huser : user s = Some u)
    (Htoken : is_Some (localStorage s !! "access_token"))
    (Hrole : User.role u ∈ ["student"; "recruiter"; "mentor"])
    (Hguard : requiredRole (matchRoute path) = Some other)
    (Hother : other ≠ User.role u) :
  AppRoutes s path = Navigate "/login" ∧
  AppRoutes s "/login" = Navigate "/" ∧
  AppRoutes s "/" = Navigate (dashboardRoute (User.role u)) ∧
  ∃ v, dashboardView (User.role u) = Some v ∧
       AppRoutes s (dashboardRoute (User.role u)) = Render v ∧
       resolve 4 s path = Some (dashboardRoute (User.role u), v).
Proof.
  pose proof (isAuthenticated_intro s u Huser Htoken) as Hauth.
  assert (Hlogin : AppRoutes s "/login" = Navigate "/").
  { unfold AppRoutes. rewrite Hloaded. cbn. by rewrite Hauth. }
  assert (Hpath : AppRoutes s path = Navigate "/login").
  { unfold AppRoutes. rewrite Hloaded.
    destruct (matchRoute path); try discriminate Hguard;
      injection Hguard as <-; cbn; rewrite Hauth; cbn;
      roles Huser;
      match goal with
      | |- context [String.eqb ?a ?b] =>
          destruct (String.eqb_spec a b) as [E|_];
          [by rewrite E in Hother | reflexivity]
      end. }
  assert (Hcases : User.role u = "student" ∨ User.role u = "recruiter"
                   ∨ User.role u = "mentor").
  { rewrite !elem_of_cons, elem_of_nil in Hrole. tauto. }
  assert (Hroot : AppRoutes s "/" = Navigate (dashboardRoute (User.role u))).
  { unfold AppRoutes. rewrite Hloaded. cbn. rewrite Hauth.
    destruct Hcases as [E|[E|E]]; roles Huser; rewrite E; reflexivity. }
  assert (Hdash : ∃ v, dashboardView (User.role u) = Some v ∧
                       AppRoutes s (dashboardRoute (User.role u)) = Render v).
  { unfold AppRoutes. rewrite Hloaded.
    destruct Hcases as [E|[E|E]]; rewrite E; cbn; rewrite Hauth; cbn;
      roles Huser; rewrite E; cbn; eauto. }
  destruct Hdash as (v & Hv & Hrender).
  split; [exact Hpath |]. split; [exact Hlogin |]. split; [exact Hroot |].
  exists v. split; [exact Hv |]. split; [exact Hrender |].
  rewrite (resolve_navigate _ _ _ _ Hpath), (resolve_navigate _ _ _ _ Hlogin),
    (resolve_navigate _ _ _ _ Hroot).
  by apply resolve_render.
Qed.

(** The scenario of the specification: a recruiter asks for the student
    dashboard. *)
Lemma wrong_role_redirect_chain_witness :
  let s := session_of riley "tok2" "/" in
  (loading s = false ∧
   user s = Some riley ∧
   is_Some (localStorage s !! "access_token") ∧
   (User.role riley ∈ ["student"; "recruiter"; "mentor"]) ∧
   requiredRole (matchRoute "/student-dashboard") = Some "student" ∧
   "student" ≠ User.role riley) ∧
  AppRoutes s "/student-dashboard" = Navigate "/login" ∧
  resolve 4 s "/student-dashboard" = Some ("/recruiter-dashboard", RecruiterDashboard).
Proof.
  cbn zeta.
  assert (Htoken : is_Some (localStorage (session_of riley "tok2" "/") !! "access_token"))
    by (by exists "tok2").
  assert (Hrole : User.role riley ∈ ["student"; "recruiter"; "mentor"])
    by (cbn; set_solver).
  assert (Hother : "student" ≠ User.role riley) by discriminate.
  pose proof (wrong_role_redirect_chain (session_of riley "tok2" "/") riley
                "/student-dashboard" "student"
                eq_refl eq_refl Htoken Hrole eq_refl Hother) as H.
  destruct H as (H1 & _ & _ & v & Hv & _ & H4).
  cbn in Hv. injection Hv as <-.
  split; [repeat split; assumption || reflexivity |].
  split; [exact H1 | exact H4].
Defined.

(** A signed-in user who is neither student, recruiter nor mentor is
    redirected from every location. *)
Lemma unrecognized_role_navigates (s : State) (path : string) :
  loading s = false → isAuthenticated s = true →
  isStudent s = false → isRecruiter s = false → isMentor s = false →
  ∃ to, AppRoutes s path = Navigate to.
Proof.
  intros Hl Ha H1 H2 H3. unfold AppRoutes. rewrite Hl.
  destruct (matchRoute path); cbn; rewrite ?Ha, ?H1, ?H2, ?H3; cbn; eauto.
Qed.

Lemma unrecognized_role_never_resolves (s : State) :
  loading s = false → isAuthenticated s = true →
  isStudent s = false → isRecruiter s = false → isMentor s = false →
  ∀ fuel path, resolve fuel s path = None.
Proof.
  intros Hl Ha H1 H2 H3 fuel.
  induction fuel as [|n IH]; intros path; [reflexivity |].
  destruct (unrecognized_role_navigates s path Hl Ha H1 H2 H3) as [to Hto].
  rewrite (resolve_navigate _ _ _ _ Hto). apply IH.
Qed.

(** C2 as stated fails.  A signed-in recruiter who asks for the student
    dashboard is redirected to ["/login"], not to ["/recruiter-dashboard"];
    and a signed-in user whose role is none of the three, asking for the
    same location, is redirected to ["/login"] as well and is never shown
    any view, whatever the number of redirects followed. *)
Lemma wrong_role_redirects_to_login :
  AppRoutes (session_of riley "tok2" "/") "/student-dashboard" = Navigate "/login" ∧
  AppRoutes (session_of riley "tok2" "/") "/student-dashboard"
    ≠ Navigate (dashboardRoute (User.role riley)) ∧
  AppRoutes (session_of sam "tok3" "/") "/student-dashboard"
    ≠ Navigate (dashboardRoute (User.role sam)) ∧
  (∀ fuel, resolve fuel (session_of sam "tok3" "/") "/student-dashboard" = None).
Proof.
  split; [reflexivity |]. split; [by vm_compute |]. split; [by vm_compute |].
  intros fuel. by apply unrecognized_role_never_resolves.
Qed.

(** Every other session is shown a view after at most three redirects. *)
Lemma resolve_terminates (s : State) (path : string) :
  loading s = true ∨ isAuthenticated s = false ∨
    isStudent s = true ∨ isRecruiter s = true ∨ isMentor s = true →
  ∃ r, resolve 4 s path = Some r.
Proof.
  unfold resolve, AppRoutes. destruct (loading s); [by eauto |].
  intros [H|H]; [discriminate |].
  unfold element.
  destruct (isAuthenticated s), (isStudent s), (isRecruiter s), (isMentor s);
    try (exfalso; clear -H; by intuition discriminate);
    destruct (matchRoute path); cbn; eauto.
Qed.

(** C10.  The redirects do not always end.  For the signed-in user of role
    ["admin"], ["/"] redirects to ["/login"] and ["/login"] back to ["/"]:
    from no location is a view reached, however many redirects are
    followed. *)
Theorem unrecognized_role_redirect_loop :
  let s := session_of sam "tok3" "/" in
  isAuthenticated s = true ∧
  AppRoutes s "/" = Navigate "/login" ∧
  AppRoutes s "/login" = Navigate "/" ∧
  ∀ fuel path, resolve fuel s path = None.
Proof.
  cbn zeta. split; [reflexivity |]. split; [reflexivity |].
  split; [reflexivity |].
  by apply unrecognized_role_never_resolves.
Qed.

(** ** More on the HTTP client *)

(** X1. The request interceptor writes nothing and changes nothing of a
    request but its [Authorization] header: with a non-empty token stored
    the header is ["Bearer "] followed by the token, replacing any previous
    value; with no token, or with the empty string stored as the token,
    the request goes out exactly as it was given. *)
Theorem requestInterceptor_header (s : State) (config : Config) :
  let sent := eval (requestInterceptor config) s in
  exec (requestInterceptor config) s = s ∧
  (requestInterceptor config s).2 = [] ∧
  method sent = method config ∧
  url sent = url config ∧
  body sent = body config ∧
  (∀ k, k ≠ "Authorization" → headers sent !! k = headers config !! k) ∧
  match localStorage s !! "access_token" with
  | Some (String c t) =>
      headers sent !! "Authorization" = Some ("Bearer " +:+ String c t)
  | Some "" | None => sent = config
  end.
Proof.
  cbn zeta. unfold requestInterceptor. run.
  destruct (localStorage s !! "access_token") as [[|c t]|]; cbn;
    repeat split; try done.
  - intros k Hk. by rewrite lookup_insert_ne.
  - apply lookup_insert_eq.
Qed.

Lemma request_split {A : Type} (s : State) (config : Config)
    (server : Config → Reply A) :
  exec (request config server) s =
    exec (request_receive (server (eval (request_send config) s))) s ∧
  eval (request config server) s =
    eval (request_receive (server (eval (request_send config) s))) s ∧
  (request config server s).2 =
    (request_receive (server (eval (request_send config) s)) s).2.
Proof.
  destruct (request_send_exec s config) as [Hs Ht].
  unfold request, exec, eval, mbind, M_bind in *.
  destruct (request_send config s) as [[sent s1] t1]. cbn in Hs, Ht. subst s1 t1.
  cbn. by destruct (request_receive (server sent) s) as [[b s2] t2].
Qed.

(** A request answered successfully: the answer comes back, nothing is written. *)
Lemma request_fulfilled {A : Type} (s : State) (config : Config)
    (server : Config → Reply A) (a : A)
    (Hok : server (eval (requestInterceptor config) s) = ReplyOk a) :
  eval (request config server) s = Fulfilled a ∧
  exec (request config server) s = s ∧
  states (request config server) s = [s].
Proof.
  destruct (request_split s config server) as (He & Hv & Ht).
  unfold states. rewrite He, Hv, Ht. unfold request_send. rewrite Hok.
  done.
Qed.

(** X2. A request that the server answers successfully is fulfilled with
    the answer and leaves the whole state as it was, toasts included; the
    server was sent the request as the interceptor completed it. *)
Theorem request_success {A : Type} (s : State) (config : Config)
    (server : Config → Reply A) (a : A)
    (Hok : server (eval (requestInterceptor config) s) = ReplyOk a) :
  eval (request config server) s = Fulfilled a ∧
  exec (request config server) s = s ∧
  states (request config server) s = [s].
Proof. eapply request_fulfilled; eassumption. Qed.

Lemma request_success_witness :
  let s := session_of alex "tok1" "/student-dashboard" in
  let server : Config → Reply string :=
    λ c, match headers c !! "Authorization" with
         | Some "Bearer tok1" => ReplyOk "quiz list"
         | _ => ReplyError unauthorized
         end in
  server (eval (requestInterceptor (axios_get "/quizzes")) s) = ReplyOk "quiz list" ∧
  eval (request (axios_get "/quizzes") server) s = Fulfilled "quiz list" ∧
  exec (request (axios_get "/quizzes") server) s = s.
Proof.
  cbn zeta. split; [reflexivity |].
  pose proof (request_success (session_of alex "tok1" "/student-dashboard")
                (axios_get "/quizzes")
                (λ c, match headers c !! "Authorization" with
                      | Some "Bearer tok1" => ReplyOk "quiz list"
                      | _ => ReplyError unauthorized
                      end)
                "quiz list" eq_refl) as (H1 & H2 & _).
  split; [exact H1 | exact H2].
Defined.

(** What the rejection handler leaves alone when the status is not 401. *)
Lemma responseError_frame (s : State) (error : AxiosError)
    (Hne : ∀ r, response error = Some r → status r ≠ 401%Z) :
  let s' := exec (responseError error) s in
  localStorage s' = localStorage s ∧
  user s' = user s ∧
  loading s' = loading s ∧
  location s' = location s ∧
  reload s' = reload s ∧
  isAuthenticated s' = isAuthenticated s ∧
  (toasts s' = toasts s ∨ ∃ msg, toasts s' = toasts s ++ [ToastError msg]).
Proof.
  cbn zeta. unfold responseError.
  destruct (response error) as [r|] eqn:Hr.
  - rewrite bool_decide_eq_false_2 by (by apply Hne).
    unfold toast_detail.
    repeat case_bool_decide; try destruct (detail_or _ _);
      repeat split; cbn; eauto.
  - repeat split; cbn; eauto.
Qed.

(** X3. Only the status 401 touches the session.  For every other failure,
    an answer with another status or no answer at all, the rejection
    handler leaves [localStorage], the identity, [loading] and the location
    as they were, asks for no document load, and adds at most one toast. *)
Theorem responseError_keeps_session (s : State) (error : AxiosError)
    (Hne : ∀ r, response error = Some r → status r ≠ 401%Z) :
  let s' := exec (responseError error) s in
  localStorage s' = localStorage s ∧
  user s' = user s ∧
  loading s' = loading s ∧
  location s' = location s ∧
  reload s' = reload s ∧
  isAuthenticated s' = isAuthenticated s ∧
  (toasts s' = toasts s ∨ ∃ msg, toasts s' = toasts s ++ [ToastError msg]).
Proof. eapply responseError_frame; eassumption. Qed.

Lemma responseError_keeps_session_witness :
  let s := session_of alex "tok1" "/student-dashboard" in
  let s' := exec (responseError (mkAxiosError None)) s in
  (∀ r, response (mkAxiosError None) = Some r → status r ≠ 401%Z) ∧
  localStorage s' = localStorage s ∧
  user s' = Some alex ∧
  isAuthenticated s' = true.
Proof.
  cbn zeta.
  assert (Hne : ∀ r, response (mkAxiosError None) = Some r → status r ≠ 401%Z)
    by (intros r; discriminate).
  pose proof (responseError_keeps_session
                (session_of alex "tok1" "/student-dashboard")
                (mkAxiosError None) Hne) as H.
  cbn zeta in H. destruct H as (H1 & H2 & _ & _ & _ & H6 & _).
  split; [exact Hne |]. split; [exact H1 |]. split; [exact H2 |].
  rewrite H6. reflexivity.
Defined.


(** X5. The message of the toast for a status that is none of 401, 403, 422
    and 500 (400 and 404 are such): the [detail] of the body when it is a
    non-empty string, and ["An error occurred"] when [detail] is missing or
    empty.  For 403 the fallback is ["Permission denied"]. *)
Theorem responseError_detail_fallback (s : State) (error : AxiosError)
    (r : ErrorResponse) (detail : option string)
    (Hr : response error = Some r)
    (Hdata : data r = DataObject detail)
    (H401 : status r ≠ 401%Z) (H422 : status r ≠ 422%Z) (H500 : status r ≠ 500%Z) :
  toasts (exec (responseError error) s) =
    toasts s ++ [ToastError
      (match detail with
       | Some (String c t) => String c t
       | Some "" | None =>
           if bool_decide (status r = 403%Z) then "Permission denied"
           else "An error occurred"
       end)].
Proof.
  unfold responseError, toast_detail, detail_or. rewrite Hr, Hdata.
  rewrite (bool_decide_eq_false_2 _ H401).
  case_bool_decide.
  - by destruct detail as [[|c t]|].
  - rewrite (bool_decide_eq_false_2 _ H422), (bool_decide_eq_false_2 _ H500).
    by destruct detail as [[|c t]|].
Qed.

Lemma responseError_detail_fallback_witness :
  let not_found := mkAxiosError (Some (mkErrorResponse 404 (DataObject None))) in
  response not_found = Some (mkErrorResponse 404 (DataObject None)) ∧
  toasts (exec (responseError not_found) (anonymous "/login"))
    = [ToastError "An error occurred"].
Proof.
  cbn zeta. split; [reflexivity |].
  exact (responseError_detail_fallback (anonymous "/login")
           (mkAxiosError (Some (mkErrorResponse 404 (DataObject None))))
           (mkErrorResponse 404 (DataObject None)) None
           eq_refl eq_refl ltac:(done) ltac:(done) ltac:(done)).
Defined.

(** ** Failed logins *)

Lemma login_end_error (s : State) (email : string) (e : AxiosError) :
  exec (login_end email (ReplyError e)) s = exec (responseError e) s ∧
  eval (login_end email (ReplyError e)) s = Rejected (eval (responseError e) s).
Proof.
  unfold login_end, request_receive, exec, eval, mbind, mret, M_bind, M_ret.
  by destruct (responseError e s) as [[t s1] t1].
Qed.

(** X6. A login that fails with anything but a 401 leaves no trace in the
    session: the promise is rejected, and [localStorage], the identity and
    the location are what they were before the call. *)
Theorem login_failure_keeps_session (s : State) (email password : string)
    (server : Config → Reply LoginData.t) (e : AxiosError)
    (Herr : server (eval (login_begin email password) s) = ReplyError e)
    (Hne : ∀ r, response e = Some r → status r ≠ 401%Z) :
  let s' := exec (login email password server) s in
  (∃ t, eval (login email password server) s = Rejected t) ∧
  localStorage s' = localStorage s ∧
  user s' = user s ∧
  location s' = location s ∧
  reload s' = reload s ∧
  isAuthenticated s' = isAuthenticated s.
Proof.
  cbn zeta. destruct (login_split s email password server) as [-> ->].
  rewrite Herr. destruct (login_end_error s email e) as [-> ->].
  pose proof (responseError_frame s e Hne) as H. cbn zeta in H.
  destruct H as (H1 & H2 & _ & H4 & H5 & H6 & _).
  split; [eauto | done].
Qed.

Lemma login_failure_keeps_session_witness :
  let unprocessable := mkAxiosError (Some (mkErrorResponse 422 (DataObject None))) in
  let server : Config → Reply LoginData.t := λ _, ReplyError unprocessable in
  let s' := exec (login "alex@example.com" "" server) (anonymous "/login") in
  server (eval (login_begin "alex@example.com" "") (anonymous "/login"))
    = ReplyError unprocessable ∧
  localStorage s' = ∅ ∧
  user s' = None ∧
  location s' = "/login".
Proof.
  cbn zeta.
  assert (Hne : ∀ r, response (mkAxiosError (Some (mkErrorResponse 422 (DataObject None))))
                       = Some r → status r ≠ 401%Z)
    by (intros r [= <-]; done).
  pose proof (login_failure_keeps_session (anonymous "/login") "alex@example.com" ""
                (λ _, ReplyError (mkAxiosError (Some (mkErrorResponse 422 (DataObject None)))))
                _ eq_refl Hne) as H.
  cbn zeta in H. destruct H as (_ & H1 & H2 & H3 & _).
  split; [reflexivity |]. split; [exact H1 |]. split; [exact H2 | exact H3].
Defined.

(** X7. A login refused with a 401 is treated as an expired session: the
    entries of whoever was signed in are removed, the toast says that the
    session expired, a document load of ["/login"] is asked for, and the
    promise is rejected with the error. *)
Theorem login_unauthorized (s : State) (email password : string)
    (server : Config → Reply LoginData.t) (e : AxiosError) (r : ErrorResponse)
    (Herr : server (eval (login_begin email password) s) = ReplyError e)
    (Hr : response e = Some r) (H401 : status r = 401%Z) :
  let s' := exec (login email password server) s in
  eval (login email password server) s = Rejected (ThrownError e) ∧
  localStorage s' !! "access_token" = None ∧
  localStorage s' !! "user_role" = None ∧
  isAuthenticated s' = false ∧
  location s' = "/login" ∧
  reload s' = true ∧
  toasts s' = toasts s ++ [ToastError "Session expired. Please login again."].
Proof.
  cbn zeta. destruct (login_split s email password server) as [-> ->].
  rewrite Herr. destruct (login_end_error s email e) as [-> ->].
  unfold exec, eval. rewrite (responseError_401_exec s e r Hr H401). cbn.
  assert (Htok : delete "user_role" (delete "access_token" (localStorage s))
                   !! "access_token" = None).
  { rewrite lookup_delete_ne by done. apply lookup_delete_eq. }
  repeat split; try done.
  - apply lookup_delete_eq.
  - unfold isAuthenticated. cbn. rewrite Htok. apply andb_false_r.
Qed.

Lemma login_unauthorized_witness :
  let server : Config → Reply LoginData.t := λ _, ReplyError unauthorized in
  let s' := exec (login "riley@example.com" "wrong" server)
                 (session_of riley "tok2" "/login") in
  status (mkErrorResponse 401 (DataObject (Some "Could not validate credentials")))
    = 401%Z ∧
  localStorage s' !! "access_token" = None ∧
  reload s' = true ∧
  toasts s' = [ToastError "Session expired. Please login again."].
Proof.
  cbn zeta.
  pose proof (login_unauthorized (session_of riley "tok2" "/login")
                "riley@example.com" "wrong" (λ _, ReplyError unauthorized)
                unauthorized _ eq_refl eq_refl eq_refl) as H.
  cbn zeta in H. destruct H as (_ & H1 & _ & _ & _ & H5 & H6).
  split; [reflexivity |]. split; [exact H1 |]. split; [exact H5 | exact H6].
Defined.

(** ** More on the restoration *)

Lemma restore_with_credentials (s : State) (server : Config → Reply User.t) :
  truthy (localStorage s !! "access_token") = true →
  truthy (localStorage s !! "user_role") = true →
  restore server s = getCurrentUser server s.
Proof.
  intros H1 H2. unfold restore. run. cbn. rewrite H1, H2. cbn.
  by destruct (getCurrentUser server s) as [[b s2] t2].
Qed.

(** The state a restoration ends in when [/auth/me] answers with a user. *)
Lemma restore_fulfilled (storage : gmap string string) (path : string)
    (server : Config → Reply User.t) (userData : User.t)
    (Htoken : truthy (storage !! "access_token") = true)
    (Hhint : truthy (storage !! "user_role") = true)
    (Hok : server (eval (requestInterceptor (axios_get "/auth/me")) (mount storage path))
           = ReplyOk userData) :
  exec (restore server) (mount storage path) =
    mkState (<["user_role" := User.role userData]> storage) (Some userData)
            false path false [] ∧
  isAuthenticated (exec (restore server) (mount storage path)) = true.
Proof.
  assert (Hexec : exec (restore server) (mount storage path) =
            mkState (<["user_role" := User.role userData]> storage) (Some userData)
                    false path false []).
  { unfold exec. rewrite restore_with_credentials by done.
    fold (exec (getCurrentUser server) (mount storage path)).
    unfold getCurrentUser. rewrite exec_bind.
    destruct (request_fulfilled (mount storage path) (axios_get "/auth/me") server
                userData Hok) as (-> & -> & _).
    reflexivity. }
  split; [exact Hexec |]. rewrite Hexec. unfold isAuthenticated. cbn.
  rewrite lookup_insert_ne by done.
  by destruct (storage !! "access_token") as [[|c t]|].
Qed.

(** X8. Mounted over a stored token and role hint, and answered by
    [/auth/me] with a user, the restoration ends with that user as the
    identity, the role hint rewritten to the user's role whatever it was,
    the token untouched, [loading] false and the session authenticated;
    no toast is shown and the location is not changed. *)
Theorem restore_success (storage : gmap string string) (path : string)
    (server : Config → Reply User.t) (userData : User.t)
    (Htoken : truthy (storage !! "access_token") = true)
    (Hhint : truthy (storage !! "user_role") = true)
    (Hok : server (eval (requestInterceptor (axios_get "/auth/me")) (mount storage path))
           = ReplyOk userData) :
  exec (restore server) (mount storage path) =
    mkState (<["user_role" := User.role userData]> storage) (Some userData)
            false path false [] ∧
  isAuthenticated (exec (restore server) (mount storage path)) = true.
Proof. eapply restore_fulfilled; eassumption. Qed.

Lemma restore_success_witness :
  let storage : gmap string string :=
    {[ "access_token" := "tok1"; "user_role" := "recruiter" ]} in
  let server : Config → Reply User.t := λ _, ReplyOk alex in
  let s' := exec (restore server) (mount storage "/student-dashboard") in
  truthy (storage !! "access_token") = true ∧
  user s' = Some alex ∧
  localStorage s' !! "user_role" = Some "student" ∧
  AppRoutes s' "/student-dashboard" = Render StudentDashboard.
Proof.
  cbn zeta.
  pose proof (restore_success {[ "access_token" := "tok1"; "user_role" := "recruiter" ]}
                "/student-dashboard" (λ _, ReplyOk alex) alex
                eq_refl eq_refl eq_refl) as [H _].
  split; [reflexivity |]. rewrite H. repeat split.
Defined.

(** The restoration when one of the two entries is missing or empty. *)
Lemma restore_skipped (s : State) (server : Config → Reply User.t)
    (Hmissing : truthy (localStorage s !! "access_token")
                && truthy (localStorage s !! "user_role") = false) :
  exec (restore server) s =
    mkState (localStorage s) (user s) false (location s) (reload s) (toasts s) ∧
  (restore server s).2 = [exec (restore server) s].
Proof.
  unfold restore. run. cbn. rewrite Hmissing. done.
Qed.

(** X9. When the token or the role hint is missing or empty, the
    restoration asks the server nothing and only sets [loading] to false:
    the outcome is the same for every server, and an entry stored without
    its companion is left where it is. *)
Theorem restore_without_credentials (s : State) (server : Config → Reply User.t)
    (Hmissing : truthy (localStorage s !! "access_token")
                && truthy (localStorage s !! "user_role") = false) :
  exec (restore server) s =
    mkState (localStorage s) (user s) false (location s) (reload s) (toasts s) ∧
  (restore server s).2 = [exec (restore server) s].
Proof. eapply restore_skipped; eassumption. Qed.

Lemma restore_without_credentials_witness :
  let storage : gmap string string := {[ "access_token" := "tok1" ]} in
  let server : Config → Reply User.t := λ _, ReplyOk alex in
  let s' := exec (restore server) (mount storage "/") in
  truthy (storage !! "access_token") && truthy (storage !! "user_role") = false ∧
  user s' = None ∧
  localStorage s' !! "access_token" = Some "tok1" ∧
  loading s' = false.
Proof.
  cbn zeta.
  pose proof (restore_without_credentials (mount {[ "access_token" := "tok1" ]} "/")
                (λ _, ReplyOk alex) eq_refl) as [H _].
  split; [reflexivity |]. rewrite H. repeat split.
Defined.

(** The state [getCurrentUser] ends in when its request fails. *)
Lemma getCurrentUser_rejected (s : State) (server : Config → Reply User.t)
    (e : AxiosError)
    (Herr : server (eval (requestInterceptor (axios_get "/auth/me")) s) = ReplyError e) :
  let s' := exec (getCurrentUser server) s in
  localStorage s' !! "access_token" = None ∧
  localStorage s' !! "user_role" = None ∧
  user s' = None ∧
  loading s' = false ∧
  isAuthenticated s' = false.
Proof.
  cbn zeta. unfold getCurrentUser. rewrite exec_bind.
  destruct (request_split s (axios_get "/auth/me") server) as (-> & -> & _).
  unfold request_send. rewrite Herr.
  unfold request_receive.
  assert (Hev : ∃ t, eval (t ← responseError e; mret (Rejected (A:=User.t) t)) s
                     = Rejected t).
  { unfold eval, mbind, mret, M_bind, M_ret.
    destruct (responseError e s) as [[t s1] t1]. by exists t. }
  destruct Hev as [t ->]. cbn beta iota.
  set (s1 := exec _ s). rewrite !exec_bind. cbn.
  assert (Htok : delete "user_role" (delete "access_token" (localStorage s1))
                   !! "access_token" = None).
  { rewrite lookup_delete_ne by done. apply lookup_delete_eq. }
  repeat split; try done. apply lookup_delete_eq.
Qed.

(** X10. Any failure of [/auth/me] signs the user out, a lost connection or
    a server error as much as a refused token: [getCurrentUser] ends with
    both entries removed, the identity null and [loading] false. *)
Theorem getCurrentUser_failure_clears (s : State) (server : Config → Reply User.t)
    (e : AxiosError)
    (Herr : server (eval (requestInterceptor (axios_get "/auth/me")) s) = ReplyError e) :
  let s' := exec (getCurrentUser server) s in
  localStorage s' !! "access_token" = None ∧
  localStorage s' !! "user_role" = None ∧
  user s' = None ∧
  loading s' = false ∧
  isAuthenticated s' = false.
Proof. eapply getCurrentUser_rejected; eassumption. Qed.

Lemma getCurrentUser_failure_clears_witness :
  let offline : AxiosError := mkAxiosError None in
  let server : Config → Reply User.t := λ _, ReplyError offline in
  let s := session_of alex "tok1" "/student-dashboard" in
  server (eval (requestInterceptor (axios_get "/auth/me")) s) = ReplyError offline ∧
  localStorage (exec (getCurrentUser server) s) !! "access_token" = None ∧
  user (exec (getCurrentUser server) s) = None.
Proof.
  cbn zeta.
  pose proof (getCurrentUser_failure_clears (session_of alex "tok1" "/student-dashboard")
                (λ _, ReplyError (mkAxiosError None)) (mkAxiosError None) eq_refl) as H.
  cbn zeta in H. destruct H as (H1 & _ & H3 & _).
  split; [reflexivity |]. split; [exact H1 | exact H3].
Defined.

(** ** Registration *)

(** X11. A successful registration signs nobody in: it shows its toast and
    navigates to ["/login"], and writes neither [localStorage] nor the
    identity.  This holds for each of the three endpoints. *)
Theorem register_success {A : Type} (s : State) (path : string)
    (formData : list (string * string)) (server : Config → Reply A) (a : A)
    (Hok : server (eval (requestInterceptor (axios_post path formData)) s) = ReplyOk a) :
  let s' := exec (register_at path formData server) s in
  eval (register_at path formData server) s = Fulfilled tt ∧
  localStorage s' = localStorage s ∧
  user s' = user s ∧
  isAuthenticated s' = isAuthenticated s ∧
  location s' = "/login" ∧
  toasts s' = toasts s ++ [ToastSuccess "Registration successful! Please login."].
Proof.
  cbn zeta. unfold register_at, eval at 1. rewrite !exec_bind.
  destruct (request_fulfilled s (axios_post path formData) server a Hok)
    as (Hv & He & _).
  unfold exec, eval, mbind, M_bind in *.
  destruct (request (axios_post path formData) server s) as [[r s1] t1].
  cbn in Hv, He. subst r s1. done.
Qed.

Lemma register_success_witness :
  let form := [("name", "Alex"); ("email", "alex@example.com"); ("password", "password123")] in
  let server : Config → Reply User.t :=
    λ c, if String.eqb (url c) (baseURL +:+ "/auth/student/signup")
         then ReplyOk alex else ReplyError unauthorized in
  let s' := exec (registerStudent form server) (anonymous "/signup-student") in
  server (eval (requestInterceptor (axios_post "/auth/student/signup" form))
               (anonymous "/signup-student")) = ReplyOk alex ∧
  user s' = None ∧
  localStorage s' = ∅ ∧
  location s' = "/login".
Proof.
  cbn zeta.
  pose proof (register_success (anonymous "/signup-student") "/auth/student/signup"
                [("name", "Alex"); ("email", "alex@example.com"); ("password", "password123")]
                (λ c, if String.eqb (url c) (baseURL +:+ "/auth/student/signup")
                      then ReplyOk alex else ReplyError unauthorized)
                alex eq_refl) as H.
  cbn zeta in H. destruct H as (_ & H1 & H2 & _ & H4 & _).
  split; [reflexivity |]. split; [exact H2 |]. split; [exact H1 | exact H4].
Defined.

(** X12. A registration that fails with anything but a 401 is rejected and
    does not navigate: location, [localStorage] and identity stay. *)
Theorem register_failure {A : Type} (s : State) (path : string)
    (formData : list (string * string)) (server : Config → Reply A) (e : AxiosError)
    (Herr : server (eval (requestInterceptor (axios_post path formData)) s) = ReplyError e)
    (Hne : ∀ r, response e = Some r → status r ≠ 401%Z) :
  let s' := exec (register_at path formData server) s in
  (∃ t, eval (register_at path formData server) s = Rejected t) ∧
  location s' = location s ∧
  localStorage s' = localStorage s ∧
  user s' = user s.
Proof.
  cbn zeta.
  pose proof (responseError_frame s e Hne) as H. cbn zeta in H.
  destruct H as (H1 & H2 & _ & H4 & _).
  destruct (request_split s (axios_post path formData) server) as (He & Hv & _).
  unfold request_send in He, Hv. rewrite Herr in He, Hv.
  unfold register_at. unfold eval at 1. rewrite exec_bind.
  unfold request_receive in He, Hv.
  unfold exec, eval, mbind, mret, M_bind, M_ret in *.
  destruct (request (axios_post path formData) server s) as [[r s1] t1].
  destruct (responseError e s) as [[t s2] t2].
  cbn in *. subst r s1. cbn. split; [eauto | done].
Qed.

Lemma register_failure_witness :
  let taken := mkAxiosError (Some (mkErrorResponse 400 (DataObject (Some "Email already registered")))) in
  let server : Config → Reply User.t := λ _, ReplyError taken in
  let s' := exec (registerMentor [("email", "sam@example.com")] server)
                 (anonymous "/signup-mentor") in
  server (eval (requestInterceptor (axios_post "/auth/mentor/signup" [("email", "sam@example.com")]))
               (anonymous "/signup-mentor")) = ReplyError taken ∧
  location s' = "/signup-mentor" ∧
  toasts s' = [ToastError "Email already registered"].
Proof.
  cbn zeta.
  assert (Hne : ∀ r, response (mkAxiosError (Some (mkErrorResponse 400
                        (DataObject (Some "Email already registered"))))) = Some r →
                     status r ≠ 401%Z)
    by (intros r [= <-]; done).
  pose proof (register_failure (anonymous "/signup-mentor") "/auth/mentor/signup"
                [("email", "sam@example.com")]
                (λ _, @ReplyError User.t (mkAxiosError (Some (mkErrorResponse 400
                        (DataObject (Some "Email already registered"))))))
                _ eq_refl Hne) as H.
  cbn zeta in H. destruct H as (_ & H1 & _).
  split; [reflexivity |]. split; [exact H1 | reflexivity].
Defined.

(** ** What the router shows *)






(** X15. Login and router agree.  After a successful login of a student,
    recruiter or mentor, in a session that had finished loading, the
    location the login navigated to is one the router renders, as the
    dashboard of the role: no redirect follows. *)
Theorem login_lands_on_dashboard (s : State) (email password : string)
    (server : Config → Reply LoginData.t) (d : LoginData.t)
    (Hloaded : loading s = false)
    (Hok : server (eval (login_begin email password) s) = ReplyOk d)
    (Hrole : LoginData.role d ∈ ["student"; "recruiter"; "mentor"]) :
  let s' := exec (login email password server) s in
  ∃ v, dashboardView (LoginData.role d) = Some v ∧
       AppRoutes s' (location s') = Render v.
Proof.
  cbn zeta. destruct (login_split s email password server) as [-> _].
  rewrite Hok. destruct (login_end_ok_exec s email d) as [-> _].
  unfold AppRoutes, element, isAuthenticated, isStudent, isRecruiter, isMentor,
    hasRole. cbn. rewrite Hloaded.
  rewrite lookup_insert_ne by done. rewrite lookup_insert_eq. cbn.
  rewrite !elem_of_cons, elem_of_nil in Hrole.
  destruct Hrole as [E|[E|[E|[]]]]; rewrite E; cbn; eauto.
Qed.

Lemma login_lands_on_dashboard_witness :
  let server : Config → Reply LoginData.t :=
    λ _, ReplyOk (LoginData.mk "tok9" "mentor" "u9") in
  let s' := exec (login "kim@example.com" "password123" server) (anonymous "/login") in
  ("mentor" ∈ ["student"; "recruiter"; "mentor"]) ∧
  AppRoutes s' (location s') = Render MentorDashboard.
Proof.
  cbn zeta.
  assert (Hrole : "mentor" ∈ ["student"; "recruiter"; "mentor"]) by set_solver.
  destruct (login_lands_on_dashboard (anonymous "/login") "kim@example.com" "password123"
              (λ _, ReplyOk (LoginData.mk "tok9" "mentor" "u9"))
              (LoginData.mk "tok9" "mentor" "u9") eq_refl eq_refl Hrole)
    as (v & Hv & H).
  cbn in Hv. injection Hv as <-. split; [exact Hrole | exact H].
Defined.

(** ** Consistency of the session *)

Lemma session_ok_no_identity (s : State) : user s = None → session_ok s.
Proof. intros H u Hu. congruence. Qed.

(** X16. The operations of the provider end in a consistent session, where
    an identity in memory has its token stored and its role as the stored
    hint: a successful login and a logout do from every state, and the
    restoration does from mounting, whatever the server answers. *)
Theorem session_ok_established :
  (∀ s email password (server : Config → Reply LoginData.t) d,
     server (eval (login_begin email password) s) = ReplyOk d →
     session_ok (exec (login email password server) s)) ∧
  (∀ s, session_ok (exec logout s)) ∧
  (∀ storage path (server : Config → Reply User.t),
     session_ok (exec (restore server) (mount storage path))).
Proof.
  split; [| split].
  - intros s email password server d Hok.
    destruct (login_split s email password server) as [-> _]. rewrite Hok.
    destruct (login_end_ok_exec s email d) as [-> _].
    intros u [= <-]. cbn. split.
    + rewrite lookup_insert_ne by done. rewrite lookup_insert_eq. by eexists.
    + apply lookup_insert_eq.
  - intros s. by apply session_ok_no_identity.
  - intros storage path server.
    destruct (truthy (storage !! "access_token")) eqn:Htoken;
      [destruct (truthy (storage !! "user_role")) eqn:Hhint |].
    + destruct (server (eval (requestInterceptor (axios_get "/auth/me"))
                          (mount storage path))) as [userData|e] eqn:Hreply.
      * destruct (restore_fulfilled storage path server userData Htoken Hhint Hreply)
          as [-> _].
        intros u [= <-]. cbn. split.
        -- rewrite lookup_insert_ne by done.
           by destruct (storage !! "access_token") as [[|c t]|].
        -- apply lookup_insert_eq.
      * apply session_ok_no_identity. unfold exec.
        rewrite restore_with_credentials by done.
        apply (getCurrentUser_rejected (mount storage path) server e Hreply).
    + apply session_ok_no_identity.
      destruct (restore_skipped (mount storage path) server) as [-> _];
        [cbn; rewrite Htoken, Hhint |]; done.
    + apply session_ok_no_identity.
      destruct (restore_skipped (mount storage path) server) as [-> _];
        [cbn; by rewrite Htoken |]; done.
Qed.

Lemma session_ok_established_witness :
  let server : Config → Reply LoginData.t :=
    λ _, ReplyOk (LoginData.mk "tok1" "student" "u1") in
  let s' := exec (login "alex@example.com" "password123" server)
                 (session_of riley "tok2" "/login") in
  server (eval (login_begin "alex@example.com" "password123")
               (session_of riley "tok2" "/login"))
    = ReplyOk (LoginData.mk "tok1" "student" "u1") ∧
  session_ok s' ∧
  user s' = Some alex.
Proof.
  cbn zeta. split; [reflexivity |]. split; [| reflexivity].
  exact (proj1 session_ok_established (session_of riley "tok2" "/login")
           "alex@example.com" "password123"
           (λ _, ReplyOk (LoginData.mk "tok1" "student" "u1"))
           (LoginData.mk "tok1" "student" "u1") eq_refl).
Defined.

Lemma login_trace (s : State) (email password : string)
    (server : Config → Reply LoginData.t) :
  (login email password server s).2 =
    (login_end email (server (eval (login_begin email password) s)) s).2.
Proof.
  destruct (request_send_exec s
              (axios_post "/auth/login" [("username", email); ("password", password)]))
    as [Hs Ht].
  unfold login, login_begin, exec, eval, mbind, M_bind in *.
  destruct (request_send _ s) as [[sent s1] t1]. cbn in Hs, Ht. subst s1 t1. cbn.
  by destruct (login_end email (server sent) s) as [[b s2] t2].
Qed.

(** X17. A successful login started with no identity in memory shows no
    half-made session: the token and the role hint are stored before the
    identity is set, so every state the login passes through, each write
    taken alone, is consistent. *)
Theorem login_never_partial (s : State) (email password : string)
    (server : Config → Reply LoginData.t) (d : LoginData.t)
    (Hanon : user s = None)
    (Hok : server (eval (login_begin email password) s) = ReplyOk d) :
  Forall session_ok (states (login email password server) s) ∧
  length (states (login email password server) s) = 6.
Proof.
  unfold states. rewrite login_trace, Hok.
  assert (Htok : ∀ m : gmap string string,
            is_Some (<["user_role" := LoginData.role d]>
                       (<["access_token" := LoginData.access_token d]> m)
                       !! "access_token")).
  { intros m. rewrite lookup_insert_ne by done. rewrite lookup_insert_eq.
    by eexists. }
  split; [| reflexivity].
  repeat apply Forall_cons_2; try apply Forall_nil_2;
    try (apply session_ok_no_identity; exact Hanon);
    intros u [= <-]; cbn; (split; [apply Htok | apply lookup_insert_eq]).
Qed.

Lemma login_never_partial_witness :
  let server : Config → Reply LoginData.t :=
    λ _, ReplyOk (LoginData.mk "tok1" "student" "u1") in
  user (anonymous "/login") = None ∧
  Forall session_ok
         (states (login "alex@example.com" "password123" server) (anonymous "/login")).
Proof.
  cbn zeta. split; [reflexivity |].
  exact (proj1 (login_never_partial (anonymous "/login") "alex@example.com" "password123"
                  (λ _, ReplyOk (LoginData.mk "tok1" "student" "u1"))
                  (LoginData.mk "tok1" "student" "u1") eq_refl eq_refl)).
Defined.

(** X18. From its first write on, [logout] leaves no authenticated state:
    the token is the first thing removed, so [isAuthenticated()] is false
    in each of the five states it writes, also in those where the identity
    is still in memory. *)
Theorem logout_never_authenticated (s : State) :
  Forall (λ s', isAuthenticated s' = false) (logout s).2 ∧
  length (logout s).2 = 5.
Proof.
  split; [| reflexivity].
  assert (H1 : delete "access_token" (localStorage s) !! "access_token" = None)
    by apply lookup_delete_eq.
  assert (H2 : delete "user_role" (delete "access_token" (localStorage s))
                 !! "access_token" = None)
    by (rewrite lookup_delete_ne by done; exact H1).
  cbn. repeat apply Forall_cons_2; try apply Forall_nil_2;
    unfold isAuthenticated; cbn; rewrite ?H1, ?H2; cbn;
    try reflexivity; apply andb_false_r.
Qed.

(** ** The button and the login form *)

(** X19. The click handler of [Button] and its [disabled] attribute agree:
    a button rendered disabled, by [disabled] or by [loading], runs
    nothing when clicked, and a button rendered enabled runs its
    [onClick], if it has one. *)
Theorem handleClick_respects_disabled (p : Button.Props) (s : State) :
  (Button.disabledAttribute p = true → Button.handleClick p s = (tt, s, [])) ∧
  (Button.disabledAttribute p = false →
     ∀ f, Button.onClick p = Some f → Button.handleClick p s = f s) ∧
  (Button.onClick p = None → Button.handleClick p s = (tt, s, [])).
Proof.
  unfold Button.disabledAttribute, Button.handleClick.
  destruct p as [d l [f|]]; cbn; repeat split; intros; try done.
  - by destruct d, l.
  - destruct d, l; try done. by injection H0 as <-.
Qed.

Lemma handleClick_respects_disabled_witness :
  let busy := Button.mk false true (Some logout) in
  let s := session_of alex "tok1" "/student-dashboard" in
  Button.disabledAttribute busy = true ∧
  exec (Button.handleClick busy) s = s ∧
  exec (Button.handleClick (Button.mk false false (Some logout))) s = exec logout s.
Proof.
  cbn zeta.
  pose proof (handleClick_respects_disabled (Button.mk false true (Some logout))
                (session_of alex "tok1" "/student-dashboard")) as (H1 & _ & _).
  pose proof (handleClick_respects_disabled (Button.mk false false (Some logout))
                (session_of alex "tok1" "/student-dashboard")) as (_ & H2 & _).
  split; [reflexivity |]. unfold exec. rewrite (H1 eq_refl).
  rewrite (H2 eq_refl logout eq_refl). split; reflexivity.
Defined.

(** X20. Submitting the login form never rejects: whatever the login does,
    fulfilled or rejected, [onSubmit] is fulfilled, having done to the
    session what the login did, and it leaves [isLoading] false and
    [showPassword] as it was.  While the login is pending the submit button
    is rendered disabled, and enabled again afterwards. *)
Theorem onSubmit_settles (l : LoginForm.Local) (email password : string)
    (server : Config → Reply LoginData.t) (s : State) :
  let r := eval (LoginForm.onSubmit email password server l) s in
  r.1 = Fulfilled tt ∧
  LoginForm.isLoading r.2 = false ∧
  LoginForm.showPassword r.2 = LoginForm.showPassword l ∧
  exec (LoginForm.onSubmit email password server l) s
    = exec (login email password server) s ∧
  Button.disabledAttribute (LoginForm.submitButton (LoginForm.onSubmit_begin l)) = true ∧
  Button.disabledAttribute (LoginForm.submitButton r.2) = false.
Proof.
  cbn zeta. unfold LoginForm.onSubmit, exec, eval, mbind, mret, M_bind, M_ret.
  destruct (login email password server s) as [[r s1] t1]. cbn. done.
Qed.
